(** * Screenshot capture runners

    A shallow embedding of the two Playwright scripts of the repository,

      - [jules-scratch/verification/verify_animation.py] (synchronous API,
        function [run] inside [with sync_playwright()]), and
      - [verify.py] (asynchronous API, coroutine [main] inside
        [async with async_playwright()], started by [asyncio.run]),

    together with the properties the specification states about them.

    The scripts are straight-line sequences of calls into the browser
    automation library.  The library and the browser are outside the
    repository: they appear here as a small world (driver, browser
    processes, pages, a file system and the log of the calls made) and an
    environment [env] that decides what the scripts do not control: which
    call raises, and what the server sends back. *)

From Stdlib Require Import ZArith List Ascii String Lia.
From stdpp Require Import base option list strings gmap fin_maps.

Local Open Scope string_scope.
Local Open Scope Z_scope.

(** ** Library objects *)

(** [playwright.chromium], [playwright.firefox], [playwright.webkit]. *)
Inductive browser_type := Chromium | Firefox | Webkit.

(** A keyword argument value of a library call. *)
Inductive kwarg := KBool (b : bool) | KInt (z : Z) | KStr (s : string).

(** The calls the scripts can issue.  Browser and page handles are the
    indices under which the world stores the objects. *)
Inductive op :=
| Launch (bt : browser_type) (kwargs : list (string * kwarg))
| NewPage (browser : nat)
| Goto (page : nat) (url : string)
| Evaluate (page : nat) (expression : string)
| WaitForTimeout (page : nat) (timeout : Z)
| Sleep (delay : Z)
| Screenshot (page : nat) (path : string)
| Close (browser : nat).

Inductive exn :=
| Error (o : op)          (* the library call [o] raised *)
| TargetClosed (o : op)   (* [o] was issued on a dead handle *)
| DriverError             (* the driver could not be started *)
| ModuleNotFoundError (module : string).   (* an import did not resolve *)

(** What happened to a page since its document was loaded. *)
Inductive page_event :=
| Ran (expression : string)   (* a script was evaluated in the page *)
| Idled (ms : Z).             (* the page was left alone for [ms] milliseconds *)

(** What a page shows: the document it loaded and what was done to it
    since.  An image is the rendering it was taken of. *)
Record rendering := {
  location : string;
  document : string;
  history : list page_event
}.

Record page_state := { owner : nat; shown : rendering }.

Record browser_proc := { engine : browser_type; headless : bool; alive : bool }.

Inductive driver_state := NotStarted | Running | Stopped.

Record world := {
  driver : driver_state;
  browsers : list browser_proc;
  pages : list page_state;
  fs : gmap string rendering;   (* image files, by the path the process used *)
  damaged : gset string;        (* paths of files a failed write cut short *)
  trace : list op               (* calls issued so far, oldest first *)
}.

(** What the scripts do not control. *)
Record env := {
  driver_starts : bool;           (* can the Playwright driver be started? *)
  fails : nat -> op -> bool;      (* does the call issued as number [n] raise? *)
  write_started : bool;           (* had a capture that raises opened its file? *)
  served : string -> string;      (* the document the server sends for a URL *)
  js_result : string -> string    (* the value an evaluated expression yields *)
}.

(** ** The monad of the scripts: environment, world and exceptions *)

Inductive result (A : Type) :=
| Returned (a : A)
| Raised (x : exn).
Arguments Returned {A} a.
Arguments Raised {A} x.

Definition M (A : Type) : Type := env -> world -> result A * world.

Definition ret {A} (a : A) : M A := fun _ w => (Returned a, w).

Definition bind {A B} (m : M A) (k : A -> M B) : M B :=
  fun e w =>
    match m e w with
    | (Returned a, w1) => k a e w1
    | (Raised x, w1) => (Raised x, w1)
    end.

Declare Scope script_scope.
Delimit Scope script_scope with script.
Notation "x <- m ;; k" := (bind m (fun x => k))
  (at level 100, m at next level, k at level 200, right associativity) : script_scope.
Notation "m ;; k" := (bind m (fun _ => k))
  (at level 100, k at level 200, right associativity) : script_scope.
Local Open Scope script_scope.

(** ** World updates *)

Definition log (o : op) (w : world) : world :=
  {| driver := driver w; browsers := browsers w; pages := pages w;
     fs := fs w; damaged := damaged w; trace := trace w ++ [o] |}.

Definition set_driver (d : driver_state) (w : world) : world :=
  {| driver := d; browsers := browsers w; pages := pages w;
     fs := fs w; damaged := damaged w; trace := trace w |}.

Definition set_browsers (bs : list browser_proc) (w : world) : world :=
  {| driver := driver w; browsers := bs; pages := pages w;
     fs := fs w; damaged := damaged w; trace := trace w |}.

Definition set_pages (ps : list page_state) (w : world) : world :=
  {| driver := driver w; browsers := browsers w; pages := ps;
     fs := fs w; damaged := damaged w; trace := trace w |}.

Definition set_fs (files : gmap string rendering) (w : world) : world :=
  {| driver := driver w; browsers := browsers w; pages := pages w;
     fs := files; damaged := damaged w; trace := trace w |}.

Definition set_damaged (paths : gset string) (w : world) : world :=
  {| driver := driver w; browsers := browsers w; pages := pages w;
     fs := fs w; damaged := paths; trace := trace w |}.

(** A complete image now stands at [path]. *)
Definition store (path : string) (image : rendering) (w : world) : world :=
  set_damaged (damaged w ∖ {[path]}) (set_fs (<[path := image]> (fs w)) w).

(** The file at [path] was opened for writing and the write did not
    finish: the image that was there is lost and a file cut short is
    left. *)
Definition spoil (path : string) (w : world) : world :=
  set_damaged ({[path]} ∪ damaged w) (set_fs (delete path (fs w)) w).

Definition kill (b : browser_proc) : browser_proc :=
  {| engine := engine b; headless := headless b; alive := false |}.

Definition idle (ms : Z) (p : page_state) : page_state :=
  {| owner := owner p;
     shown := {| location := location (shown p); document := document (shown p);
                 history := history (shown p) ++ [Idled ms] |} |}.

Definition ran (expression : string) (p : page_state) : page_state :=
  {| owner := owner p;
     shown := {| location := location (shown p); document := document (shown p);
                 history := history (shown p) ++ [Ran expression] |} |}.

Definition blank (b : nat) : page_state :=
  {| owner := b;
     shown := {| location := "about:blank"; document := ""; history := [] |} |}.

Definition loaded (e : env) (url : string) (p : page_state) : page_state :=
  {| owner := owner p;
     shown := {| location := url; document := served e url; history := [] |} |}.

Definition live_browser (w : world) (b : nat) : bool :=
  match browsers w !! b with
  | Some bp => alive bp
  | None => false
  end.

(** A page can be used while the browser that owns it is running. *)
Definition live_page (w : world) (p : nat) : option page_state :=
  match pages w !! p with
  | Some pg => if live_browser w (owner pg) then Some pg else None
  | None => None
  end.

(** [launch()] without a [headless] argument starts a headless browser. *)
Fixpoint headless_of (kwargs : list (string * kwarg)) : bool :=
  match kwargs with
  | [] => true
  | (k, v) :: rest =>
      if String.eqb k "headless"
      then match v with KBool b => b | _ => true end
      else headless_of rest
  end.

(** ** Library calls *)

(** A call is logged, then either raises (the environment decides, or the
    handle is dead) or takes effect. *)
Definition call {A} (o : op) (effect : env -> world -> option (A * world)) : M A :=
  fun e w =>
    let w1 := log o w in
    if fails e (length (trace w)) o then (Raised (Error o), w1)
    else match effect e w1 with
         | Some (a, w2) => (Returned a, w2)
         | None => (Raised (TargetClosed o), w1)
         end.

Definition launch (bt : browser_type) (kwargs : list (string * kwarg)) : M nat :=
  call (Launch bt kwargs) (fun _ w =>
    match driver w with
    | Running =>
        Some (length (browsers w),
              set_browsers (browsers w ++
                [{| engine := bt; headless := headless_of kwargs; alive := true |}]) w)
    | _ => None
    end).

Definition new_page (browser : nat) : M nat :=
  call (NewPage browser) (fun _ w =>
    if live_browser w browser
    then Some (length (pages w), set_pages (pages w ++ [blank browser]) w)
    else None).

Definition goto (page : nat) (url : string) : M unit :=
  call (Goto page url) (fun e w =>
    match live_page w page with
    | Some pg => Some (tt, set_pages (<[page := loaded e url pg]> (pages w)) w)
    | None => None
    end).

Definition evaluate (page : nat) (expression : string) : M string :=
  call (Evaluate page expression) (fun e w =>
    match live_page w page with
    | Some pg => Some (js_result e expression,
                       set_pages (<[page := ran expression pg]> (pages w)) w)
    | None => None
    end).

(** Time passes for every page while the script waits. *)
Definition wait_for_timeout (page : nat) (timeout : Z) : M unit :=
  call (WaitForTimeout page timeout) (fun _ w =>
    match live_page w page with
    | Some _ => Some (tt, set_pages (map (idle timeout) (pages w)) w)
    | None => None
    end).

(** [asyncio.sleep(delay)]: [delay] is in seconds. *)
Definition asyncio_sleep (delay : Z) : M unit :=
  call (Sleep delay) (fun _ w =>
    Some (tt, set_pages (map (idle (1000 * delay)) (pages w)) w)).

(** The image of what the page shows is stored under [path], replacing
    what was there.  A capture that raises has either not touched the file
    or has opened it already, and then leaves it cut short. *)
Definition screenshot (page : nat) (path : string) : M unit :=
  fun e w =>
    let w1 := log (Screenshot page path) w in
    if fails e (length (trace w)) (Screenshot page path)
    then (Raised (Error (Screenshot page path)),
          if write_started e then spoil path w1 else w1)
    else match live_page w1 page with
         | Some pg => (Returned tt, store path (shown pg) w1)
         | None => (Raised (TargetClosed (Screenshot page path)), w1)
         end.

Definition close (browser : nat) : M unit :=
  call (Close browser) (fun _ w =>
    match browsers w !! browser with
    | Some bp =>
        if alive bp
        then Some (tt, set_browsers (<[browser := kill bp]> (browsers w)) w)
        else None
    | None => None
    end).

(** ** Scopes *)

Record Playwright := {
  chromium : browser_type;
  firefox : browser_type;
  webkit : browser_type
}.

Record context_manager (A : Type) := {
  enter : M A;
  leave : M unit
}.
Arguments enter {A} _.
Arguments leave {A} _.

(** [with cm as x: body]: when [enter] returns, [leave] runs whether the
    body returns or raises, and an exception of the body goes on to the
    caller afterwards. *)
Definition with_ {A B} (cm : context_manager A) (body : A -> M B) : M B :=
  fun e w =>
    match enter cm e w with
    | (Raised x, w1) => (Raised x, w1)
    | (Returned a, w1) =>
        let '(r, w2) := body a e w1 in
        match leave cm e w2 with
        | (Raised x, w3) => (Raised x, w3)
        | (Returned _, w3) => (r, w3)
        end
    end.

Definition async_with {A B} (cm : context_manager A) (body : A -> M B) : M B :=
  with_ cm body.

Definition playwright_start : M Playwright :=
  fun e w =>
    if driver_starts e
    then (Returned {| chromium := Chromium; firefox := Firefox; webkit := Webkit |},
          set_driver Running w)
    else (Raised DriverError, w).

(** Stopping the driver ends every browser process it started. *)
Definition playwright_stop : M unit :=
  fun _ w => (Returned tt, set_driver Stopped (set_browsers (map kill (browsers w)) w)).

Definition sync_playwright : context_manager Playwright :=
  {| enter := playwright_start; leave := playwright_stop |}.

Definition async_playwright : context_manager Playwright :=
  {| enter := playwright_start; leave := playwright_stop |}.

(** One task, one thread: an awaited call has finished when the coroutine
    goes on, and [asyncio.run] returns or raises what the coroutine does. *)
Definition await {A} (m : M A) : M A := m.
Definition asyncio_run {A} (coroutine : M A) : M A := coroutine.

(** ** The scripts *)

Record process := {
  name : string;                        (* __name__ *)
  argv : list string;                   (* sys.argv *)
  environ : list (string * string);     (* os.environ *)
  importable : string -> bool           (* does the interpreter find the module? *)
}.

(** [import module] and [from module import ...]: the module is loaded, or
    the statement raises. *)
Definition import_ (ps : process) (module : string) : M unit :=
  fun _ w =>
    if importable ps module then (Returned tt, w)
    else (Raised (ModuleNotFoundError module), w).

(** [verify_animation.py] *)
Definition run (playwright : Playwright) : M unit :=
  browser <- launch (chromium playwright) [] ;;
  page <- new_page browser ;;
  goto page "http://localhost:8000" ;;
  wait_for_timeout page 5000 ;;
  screenshot page "jules-scratch/verification/verification.png" ;;
  close browser.

Definition verify_animation_py (ps : process) : M unit :=
  import_ ps "playwright.sync_api" ;;
  with_ sync_playwright (fun playwright => run playwright).

(** [verify.py] *)
Definition main : M unit :=
  async_with async_playwright (fun p =>
    browser <- await (launch (chromium p) []) ;;
    page <- await (new_page browser) ;;
    await (goto page "http://localhost:8000") ;;
    await (evaluate page "window.scrollTo(0, 1000)") ;;
    await (asyncio_sleep 2) ;;
    await (screenshot page "verification.png") ;;
    await (close browser)).

Definition verify_py (ps : process) : M unit :=
  import_ ps "asyncio" ;;
  import_ ps "playwright.async_api" ;;
  if String.eqb (name ps) "__main__" then asyncio_run main else ret tt.

(** ** Running a script as a process *)

Record outcome := {
  status : Z;                 (* exit status *)
  uncaught : option exn;      (* the exception that ended the process, if any *)
  final : world
}.

Definition boot (disk : gmap string rendering) : world :=
  {| driver := NotStarted; browsers := []; pages := []; fs := disk;
     damaged := ∅; trace := [] |}.

(** The interpreter exits with status 0 when the module body returns and
    with status 1 when an exception leaves it. *)
Definition python (script : process -> M unit) (ps : process)
    (e : env) (disk : gmap string rendering) : outcome :=
  match script ps e (boot disk) with
  | (Returned _, w) => {| status := 0; uncaught := None; final := w |}
  | (Raised x, w) => {| status := 1; uncaught := Some x; final := w |}
  end.

(** The script started from the command line, in an interpreter that
    finds the modules the script imports. *)
Definition standalone (args : list string) (vars : list (string * string)) : process :=
  {| name := "__main__"; argv := args; environ := vars;
     importable := fun _ => true |}.

(** ** Vocabulary of the specification *)

Inductive variant := VerifyAnimation | Verify.

Definition script (v : variant) : process -> M unit :=
  match v with
  | VerifyAnimation => verify_animation_py
  | Verify => verify_py
  end.

Definition execute (v : variant) (ps : process) (e : env)
    (disk : gmap string rendering) : outcome :=
  python (script v) ps e disk.

Definition target_url : string := "http://localhost:8000".

Definition output_path (v : variant) : string :=
  match v with
  | VerifyAnimation => "jules-scratch/verification/verification.png"
  | Verify => "verification.png"
  end.

Definition scroll_script : string := "window.scrollTo(0, 1000)".

(** The pause before the capture, as each script asks for it. *)
Definition pause (v : variant) : op :=
  match v with
  | VerifyAnimation => WaitForTimeout 0 5000
  | Verify => Sleep 2
  end.

(** Launch, new page, navigation, scroll (one variant only), pause,
    capture, close. *)
Definition contracted (v : variant) : list op :=
  [Launch Chromium []; NewPage 0; Goto 0 target_url]
  ++ match v with
     | VerifyAnimation => []
     | Verify => [Evaluate 0 scroll_script]
     end
  ++ [pause v; Screenshot 0 (output_path v); Close 0].

(** The calls a run issued. *)
Definition calls (v : variant) (ps : process) (e : env)
    (disk : gmap string rendering) : list op :=
  trace (final (execute v ps e disk)).

(** The files a run leaves behind. *)
Definition files_after (v : variant) (ps : process) (e : env)
    (disk : gmap string rendering) : gmap string rendering :=
  fs (final (execute v ps e disk)).

(** The run went through without an exception. *)
Definition completes (v : variant) (ps : process) (e : env)
    (disk : gmap string rendering) : Prop :=
  uncaught (execute v ps e disk) = None.

(** Navigation fails: a [goto] was issued and the environment made it
    raise. *)
Definition navigation_fails (v : variant) (ps : process) (e : env)
    (disk : gmap string rendering) : Prop :=
  exists n page url,
    calls v ps e disk !! n = Some (Goto page url)
    /\ fails e n (Goto page url) = true.

(** The browser processes still running. *)
Definition running (w : world) : list browser_proc :=
  List.filter alive (browsers w).

Definition is_goto (o : op) : bool :=
  match o with Goto _ _ => true | _ => false end.

Definition is_screenshot (o : op) : bool :=
  match o with Screenshot _ _ => true | _ => false end.

Definition is_evaluate (o : op) : bool :=
  match o with Evaluate _ _ => true | _ => false end.

(** The time a call suspends the script for, in milliseconds. *)
Definition pause_ms (o : op) : option Z :=
  match o with
  | WaitForTimeout _ timeout => Some timeout
  | Sleep delay => Some (1000 * delay)
  | _ => None
  end.

Definition is_relative (path : string) : bool :=
  match path with
  | String "/"%char _ => false
  | _ => true
  end.

Definition fixed_arguments (v : variant) (o : op) : Prop :=
  match o with
  | Goto _ url => url = "http://localhost:8000"
  | Screenshot _ path => path = output_path v
  | _ => True
  end.

Definition launches_default_chromium (o : op) : Prop :=
  match o with
  | Launch bt kwargs => bt = Chromium /\ kwargs = []
  | _ => True
  end.

(** What the page of [verify.py] shows once the scroll script has run and
    the two seconds have passed. *)
Definition post_scroll (e : env) : rendering :=
  {| location := "http://localhost:8000";
     document := served e "http://localhost:8000";
     history := [Ran "window.scrollTo(0, 1000)"; Idled 2000] |}.

(** The image a completed run stores. *)
Definition picture (v : variant) (e : env) : rendering :=
  {| location := "http://localhost:8000";
     document := served e "http://localhost:8000";
     history := match v with
                | VerifyAnimation => [Idled 5000]
                | Verify => [Ran "window.scrollTo(0, 1000)"; Idled 2000]
                end |}.

#[local] Instance browser_type_eq_dec : EqDecision browser_type.
Proof. solve_decision. Defined.
#[local] Instance kwarg_eq_dec : EqDecision kwarg.
Proof. solve_decision. Defined.
#[local] Instance op_eq_dec : EqDecision op.
Proof. solve_decision. Defined.

(** The part of a sequence up to its first [o], [o] included. *)
Fixpoint through (o : op) (l : list op) : list op :=
  match l with
  | [] => []
  | x :: rest => if decide (x = o) then [x] else x :: through o rest
  end.

(** The calls of a run, from the way it ended. *)
Definition issued (v : variant) (ending : option exn) : list op :=
  match ending with
  | None => contracted v
  | Some (Error o) => through o (contracted v)
  | Some (TargetClosed o) => through o (contracted v)
  | Some DriverError => []
  | Some (ModuleNotFoundError _) => []
  end.

(** ** Concrete environments *)

(** A server answers at the address and no call raises. *)
Definition reachable : env :=
  {| driver_starts := true;
     fails := fun _ _ => false;
     write_started := false;
     served := fun url => "<html>" ++ url ++ "</html>";
     js_result := fun _ => "undefined" |}.

(** No server at the address: navigation raises. *)
Definition unreachable : env :=
  {| driver_starts := true;
     fails := fun _ o => is_goto o;
     write_started := false;
     served := fun _ => "";
     js_result := fun _ => "undefined" |}.

(** Another server, with another document. *)
Definition other_server : env :=
  {| driver_starts := true;
     fails := fun _ _ => false;
     write_started := false;
     served := fun _ => "<html><body>maintenance</body></html>";
     js_result := fun _ => "null" |}.

Definition shell : process := standalone ["verify.py"] [].

(** ** Further vocabulary *)

Definition is_close (o : op) : bool :=
  match o with Close _ => true | _ => false end.

(** The object [sync_playwright()] and [async_playwright()] hand to the
    body of the scope. *)
Definition the_playwright : Playwright :=
  {| chromium := Chromium; firefox := Firefox; webkit := Webkit |}.

(** The world in which the body of the scope starts: the driver runs,
    nothing else has happened. *)
Definition started (disk : gmap string rendering) : world :=
  set_driver Running (boot disk).

(** The module executed by an [import] under the name [module]. *)
Definition imported (module : string) : process :=
  {| name := module; argv := ["pytest"]; environ := [];
     importable := fun _ => true |}.

(** The same, in an interpreter without the Playwright package. *)
Definition imported_bare (module : string) : process :=
  {| name := module; argv := ["pytest"]; environ := [];
     importable := fun m => negb (String.prefix "playwright" m) |}.

(** Was it a capture that raised? *)
Definition capture_raised (x : exn) : bool :=
  match x with
  | Error (Screenshot _ _) => true
  | _ => false
  end.

(** The capture raises after it has opened the output file. *)
Definition disk_full : env :=
  {| driver_starts := true;
     fails := fun _ o => match o with Screenshot _ _ => true | _ => false end;
     write_started := true;
     served := fun url => "<html>" ++ url ++ "</html>";
     js_result := fun _ => "undefined" |}.

(** The environment [e] with other values for the evaluated expressions. *)
Definition with_js_result (e : env) (j : string -> string) : env :=
  {| driver_starts := driver_starts e; fails := fails e;
     write_started := write_started e; served := served e; js_result := j |}.

(** Everything works but closing the browser. *)
Definition close_raises : env :=
  {| driver_starts := true;
     fails := fun _ o => is_close o;
     write_started := false;
     served := fun url => "<html>" ++ url ++ "</html>";
     js_result := fun _ => "undefined" |}.

(** The browser cannot be launched. *)
Definition launch_raises : env :=
  {| driver_starts := true;
     fails := fun n _ => Nat.eqb n 0;
     write_started := false;
     served := fun _ => "";
     js_result := fun _ => "undefined" |}.

(** The Playwright driver cannot be started. *)
Definition no_driver : env :=
  {| driver_starts := false;
     fails := fun _ _ => false;
     write_started := false;
     served := fun _ => "";
     js_result := fun _ => "undefined" |}.

(** ** Symbolic execution of a run *)

(** Case analysis on the next answer of the environment. *)
Ltac oracle :=
  match goal with
  | |- context [importable ?p ?m] => destruct (importable p m) eqn:?
  | |- context [driver_starts ?e] => destruct (driver_starts e) eqn:?
  | |- context [fails ?e ?n ?o] => destruct (fails e n o) eqn:?
  | |- context [write_started ?e] => destruct (write_started e) eqn:?
  end.

(** Runs the script of the goal along every path the environment allows:
    one goal per call that can raise, and one for the run that
    completes. *)
Ltac run_script :=
  unfold files_after, completes, calls, execute, python, script,
    verify_animation_py, verify_py, import_,
    asyncio_run, main, async_with, with_, run, await, standalone,
    sync_playwright, async_playwright, playwright_start, playwright_stop,
    launch, new_page, goto, evaluate, wait_for_timeout, asyncio_sleep,
    screenshot, close, call, bind, boot;
  cbn [enter leave name importable String.eqb Ascii.eqb Bool.eqb];
  repeat (oracle; cbn -[map_insert]).

(** Finds the position of a call in a sequence that is known. *)
Ltac which_call n :=
  repeat (destruct n as [|n]; cbn in *; try discriminate; try congruence).

(** ** Shared facts about runs *)

(** The exit status tells whether an exception left the script. *)
Lemma status_uncaught scr ps e disk :
  (uncaught (python scr ps e disk) = None /\ status (python scr ps e disk) = 0)
  \/ (exists x, uncaught (python scr ps e disk) = Some x
                /\ status (python scr ps e disk) = 1).
Proof.
  unfold python. destruct (scr ps e (boot disk)) as [[u|x] w]; cbn.
  - now left.
  - right. now exists x.
Qed.

(** Whatever happens, a run issues an initial part of the contracted
    sequence and nothing else. *)
Lemma calls_prefix v args vars e disk :
  calls v (standalone args vars) e disk `prefix_of` contracted v.
Proof.
  destruct v; run_script;
    match goal with
    | |- ?l `prefix_of` ?k => exists (drop (length l) k); reflexivity
    end.
Qed.

(** A run that no call aborts went through the whole sequence, stored its
    image under the output path and touched no other file. *)
Lemma completed_run v args vars e disk :
  completes v (standalone args vars) e disk ->
  calls v (standalone args vars) e disk = contracted v
  /\ files_after v (standalone args vars) e disk
     = <[output_path v := picture v e]> disk.
Proof.
  destruct v; run_script; intros Hdone; try discriminate Hdone;
    split; reflexivity.
Qed.

(** The way a run ended tells which calls it issued. *)
Lemma calls_by_ending v args vars e disk :
  calls v (standalone args vars) e disk
  = issued v (uncaught (execute v (standalone args vars) e disk)).
Proof.
  destruct v; run_script; reflexivity.
Qed.

(** In no run at all is there more than the one pause. *)
Lemma at_most_one_pause v args vars e disk :
  omap pause_ms (calls v (standalone args vars) e disk)
    `prefix_of` [match v with VerifyAnimation => 5000 | Verify => 2000 end].
Proof.
  destruct v; run_script;
    first [ exists []; reflexivity | eexists; reflexivity ].
Qed.

(** Also in a run that does not get to the capture, a pause comes after
    the scroll. *)
Lemma scroll_precedes_pause args vars e disk j :
  calls Verify (standalone args vars) e disk !! j = Some (Sleep 2) ->
  exists i, (i < j)%nat
    /\ calls Verify (standalone args vars) e disk !! i
       = Some (Evaluate 0 "window.scrollTo(0, 1000)").
Proof.
  run_script; intros Hpause; which_call j; exists 3%nat; split; (lia || reflexivity).
Qed.

(** The image of the scrolled page is not the one of the page as loaded. *)
Lemma post_scroll_is_not_top_of_page e :
  post_scroll e
  <> {| location := "http://localhost:8000";
        document := served e "http://localhost:8000";
        history := [Idled 2000] |}.
Proof. discriminate. Qed.

(** ** The contracted sequence *)

(** With no server behind the address the navigation raises, and neither
    pause, capture nor close is issued: the contracted sequence is not
    performed in every run. *)
Lemma navigation_failure_cuts_sequence :
  calls VerifyAnimation shell unreachable ∅
    = [Launch Chromium []; NewPage 0; Goto 0 "http://localhost:8000"]
  /\ calls VerifyAnimation shell unreachable ∅ <> contracted VerifyAnimation.
Proof. split; [reflexivity | discriminate]. Qed.

(** C1 (as amended): in every run of either variant that no call aborts,
    the runner issues exactly the contracted sequence, in order and with
    nothing else: launch Chromium, open a page, navigate to the target URL,
    scroll (asynchronous variant only), pause, capture to the output path,
    close the browser. *)
Theorem contracted_sequence_performed v args vars e disk :
  completes v (standalone args vars) e disk ->
  calls v (standalone args vars) e disk
  = ([Launch Chromium []; NewPage 0; Goto 0 "http://localhost:8000"]
     ++ match v with
        | VerifyAnimation => [WaitForTimeout 0 5000]
        | Verify => [Evaluate 0 "window.scrollTo(0, 1000)"; Sleep 2]
        end
     ++ [Screenshot 0 (output_path v); Close 0])%list.
Proof.
  intros Hdone. destruct (completed_run v args vars e disk Hdone) as [-> _].
  destruct v; reflexivity.
Qed.

Lemma contracted_sequence_performed_witness :
  completes Verify shell reachable ∅
  /\ calls Verify shell reachable ∅
     = [Launch Chromium []; NewPage 0; Goto 0 "http://localhost:8000";
        Evaluate 0 "window.scrollTo(0, 1000)"; Sleep 2;
        Screenshot 0 "verification.png"; Close 0].
Proof.
  split; [reflexivity |].
  apply (contracted_sequence_performed Verify ["verify.py"] [] reachable ∅).
  reflexivity.
Defined.

(** ** Release of the browser *)

(** C2: when the process ends, however the run went, the driver has been
    stopped and no browser process is left running; this includes the runs
    in which navigation raised. *)
Theorem browser_released_on_every_exit v args vars e disk :
  driver (final (execute v (standalone args vars) e disk)) <> Running
  /\ running (final (execute v (standalone args vars) e disk)) = [].
Proof.
  destruct v; run_script; split; (discriminate || reflexivity).
Qed.

(** The failing navigation of [unreachable] happens with a browser
    launched, and that browser is gone at the end although [Close] was
    never issued. *)
Example released_after_failed_navigation :
  browsers (final (execute VerifyAnimation shell unreachable ∅))
    = [{| engine := Chromium; headless := true; alive := false |}]
  /\ uncaught (execute VerifyAnimation shell unreachable ∅)
     = Some (Error (Goto 0 "http://localhost:8000"))
  /\ ~ In (Close 0) (calls VerifyAnimation shell unreachable ∅).
Proof.
  repeat split; cbn; intuition discriminate.
Qed.

(** ** Failing navigation *)

(** C3: when navigation fails the run aborts.  The navigation error leaves
    the script uncaught, the exit status is 1, the failed [goto] is the last
    call issued, and it is the only [goto] of the run: nothing is retried. *)
Theorem navigation_failure_aborts v args vars e disk :
  navigation_fails v (standalone args vars) e disk ->
  uncaught (execute v (standalone args vars) e disk)
    = Some (Error (Goto 0 "http://localhost:8000"))
  /\ status (execute v (standalone args vars) e disk) = 1
  /\ last (calls v (standalone args vars) e disk)
     = Some (Goto 0 "http://localhost:8000")
  /\ List.filter is_goto (calls v (standalone args vars) e disk)
     = [Goto 0 "http://localhost:8000"].
Proof.
  unfold navigation_fails.
  destruct v; run_script; intros (n & page & url & Hissued & Hraised);
    which_call n; repeat split.
Qed.

Lemma navigation_failure_aborts_witness :
  navigation_fails Verify shell unreachable ∅
  /\ status (execute Verify shell unreachable ∅) = 1.
Proof.
  assert (H : navigation_fails Verify shell unreachable ∅).
  { exists 2%nat, 0%nat, "http://localhost:8000". split; reflexivity. }
  split; [exact H |].
  apply (navigation_failure_aborts Verify ["verify.py"] [] unreachable ∅ H).
Defined.

(** C4: when navigation fails no capture is issued and the files are what
    they were before the run, at the output path as everywhere else. *)
Theorem navigation_failure_writes_nothing v args vars e disk :
  navigation_fails v (standalone args vars) e disk ->
  List.filter is_screenshot (calls v (standalone args vars) e disk) = []
  /\ files_after v (standalone args vars) e disk = disk
  /\ files_after v (standalone args vars) e disk !! output_path v
     = disk !! output_path v.
Proof.
  unfold navigation_fails.
  destruct v; run_script; intros (n & page & url & Hissued & Hraised);
    which_call n; repeat split.
Qed.

Lemma navigation_failure_writes_nothing_witness :
  navigation_fails VerifyAnimation shell unreachable ∅
  /\ files_after VerifyAnimation shell unreachable ∅ = ∅.
Proof.
  assert (H : navigation_fails VerifyAnimation shell unreachable ∅).
  { exists 2%nat, 0%nat, "http://localhost:8000". split; reflexivity. }
  split; [exact H |].
  apply (navigation_failure_writes_nothing
           VerifyAnimation ["verify.py"] [] unreachable ∅ H).
Defined.

(** ** Invocation *)

(** C5: the command line and the environment variables of the process have
    no influence on the run; every navigation goes to
    http://localhost:8000 and every capture to the variant's output path,
    which is a relative path. *)
Theorem invocation_is_ignored v args vars args' vars' e disk :
  execute v (standalone args vars) e disk
    = execute v (standalone args' vars') e disk
  /\ Forall (fixed_arguments v) (calls v (standalone args vars) e disk)
  /\ is_relative (output_path v) = true.
Proof.
  split; [destruct v; reflexivity |].
  split; [| destruct v; reflexivity].
  destruct v; run_script; repeat constructor.
Qed.

Example invocation_example :
  calls Verify (standalone ["verify.py"; "--url"; "http://example.org"]
                           [("URL", "http://example.org")]) reachable ∅
  = calls Verify shell reachable ∅.
Proof. reflexivity. Qed.

(** ** The pause *)

(** C6: in every run that gets to the capture there is one pause, of 5000
    ms in the synchronous variant and of 2000 ms in the asynchronous one;
    it is the call right before the capture, and from the pause on nothing
    is evaluated in the page: the script does not poll and waits for no
    signal. *)
Theorem single_fixed_pause v args vars e disk n page path :
  calls v (standalone args vars) e disk !! n = Some (Screenshot page path) ->
  omap pause_ms (calls v (standalone args vars) e disk)
    = [match v with VerifyAnimation => 5000 | Verify => 2000 end]
  /\ (exists m, n = S m
        /\ calls v (standalone args vars) e disk !! m = Some (pause v))
  /\ List.filter is_evaluate (drop (n - 1) (calls v (standalone args vars) e disk))
     = [].
Proof.
  destruct v; run_script; intros Hshot; which_call n;
    (split; [reflexivity | split; [eexists; split; reflexivity | reflexivity]]).
Qed.

Lemma single_fixed_pause_witness :
  omap pause_ms (calls VerifyAnimation shell reachable ∅) = [5000]
  /\ omap pause_ms (calls Verify shell reachable ∅) = [2000].
Proof.
  split.
  - apply (single_fixed_pause VerifyAnimation ["verify.py"] [] reachable ∅ 4 0
             "jules-scratch/verification/verification.png").
    reflexivity.
  - apply (single_fixed_pause Verify ["verify.py"] [] reachable ∅ 5 0
             "verification.png").
    reflexivity.
Defined.

(** ** The scroll *)

(** C7: in every run of the scroll variant that gets to the capture, the
    scroll script was evaluated before the pause and the pause came before
    the capture, nothing was evaluated after the scroll, and the image
    stored is the one of the page after scroll and pause.  The one other
    outcome is that the capture itself raised: then no image was stored,
    and the files are as they were or, when the output file had been opened
    already, the image that was there is lost and a file cut short is left
    in its place. *)
Theorem scroll_precedes_pause_and_capture args vars e disk n page path :
  calls Verify (standalone args vars) e disk !! n = Some (Screenshot page path) ->
  (exists i j, (i < j /\ j < n)%nat
     /\ calls Verify (standalone args vars) e disk !! i
        = Some (Evaluate page "window.scrollTo(0, 1000)")
     /\ calls Verify (standalone args vars) e disk !! j = Some (Sleep 2))
  /\ List.filter is_evaluate (calls Verify (standalone args vars) e disk)
     = [Evaluate page "window.scrollTo(0, 1000)"]
  /\ (files_after Verify (standalone args vars) e disk !! path
        = Some (post_scroll e)
      \/ (fails e n (Screenshot page path) = true
          /\ (files_after Verify (standalone args vars) e disk = disk
              \/ (files_after Verify (standalone args vars) e disk
                    = delete path disk
                  /\ path ∈ damaged
                       (final (execute Verify (standalone args vars) e disk)))))).
Proof.
  run_script; intros Hshot; which_call n;
    injection Hshot as <- <-;
    (split; [exists 3%nat, 4%nat; repeat split; lia |]);
    (split; [reflexivity |]).
  - right. split; [reflexivity |]. right. split; [reflexivity | set_solver].
  - right. split; [reflexivity |]. left. reflexivity.
  - left. apply lookup_insert_eq.
  - left. apply lookup_insert_eq.
Qed.

Lemma scroll_precedes_pause_and_capture_witness :
  files_after Verify shell reachable ∅ !! "verification.png"
  = Some {| location := "http://localhost:8000";
            document := "<html>http://localhost:8000</html>";
            history := [Ran "window.scrollTo(0, 1000)"; Idled 2000] |}.
Proof.
  destruct (scroll_precedes_pause_and_capture ["verify.py"] [] reachable ∅ 5 0
              "verification.png" eq_refl) as (_ & _ & [Himage | [Hraised _]]).
  - exact Himage.
  - discriminate Hraised.
Defined.

(** ** The output file *)

(** C8: a completed run issues one capture and changes the files at the
    output path only, where its image replaces whatever was there; a
    second completed run on the files of the first leaves its own image
    at that path and the same set of files as the first run did. *)
Theorem rerun_replaces_output v args vars e disk args' vars' e' :
  completes v (standalone args vars) e disk ->
  completes v (standalone args' vars') e'
    (files_after v (standalone args vars) e disk) ->
  List.filter is_screenshot (calls v (standalone args vars) e disk)
    = [Screenshot 0 (output_path v)]
  /\ files_after v (standalone args vars) e disk
     = <[output_path v := picture v e]> disk
  /\ files_after v (standalone args' vars') e'
       (files_after v (standalone args vars) e disk)
     = <[output_path v := picture v e']> disk
  /\ dom (files_after v (standalone args' vars') e'
            (files_after v (standalone args vars) e disk))
     = dom (files_after v (standalone args vars) e disk).
Proof.
  intros Hfirst Hsecond.
  destruct (completed_run _ _ _ _ _ Hsecond) as [_ ->].
  destruct (completed_run _ _ _ _ _ Hfirst) as [-> ->].
  rewrite insert_insert_eq, !dom_insert_L.
  split; [destruct v; reflexivity |].
  do 2 (split; [reflexivity |]).
  set_solver.
Qed.

Lemma rerun_replaces_output_witness :
  files_after VerifyAnimation shell reachable
    (files_after VerifyAnimation shell reachable ∅)
  = <["jules-scratch/verification/verification.png"
      := picture VerifyAnimation reachable]> ∅.
Proof.
  apply (rerun_replaces_output VerifyAnimation ["verify.py"] [] reachable ∅
           ["verify.py"] [] reachable); reflexivity.
Defined.

(** ** Determinism *)

(** A run against a server and a run against none, same script, same
    command line, same files: the sequences of calls differ. *)
Lemma reachability_changes_the_calls :
  calls Verify shell reachable ∅ <> calls Verify shell unreachable ∅.
Proof. discriminate. Qed.

(** C9 (as amended): two runs of the same variant that end the same way,
    both completing or both aborted by the same call, issue the same calls
    with the same arguments in the same order, whatever the command lines,
    the environment variables, the files present and the answers of the
    server are. *)
Theorem same_ending_same_calls v args vars e disk args' vars' e' disk' :
  uncaught (execute v (standalone args vars) e disk)
    = uncaught (execute v (standalone args' vars') e' disk') ->
  calls v (standalone args vars) e disk
    = calls v (standalone args' vars') e' disk'.
Proof.
  intros Hending. rewrite !calls_by_ending. now rewrite Hending.
Qed.

Lemma same_ending_same_calls_witness :
  calls Verify shell reachable ∅
  = calls Verify (standalone ["verify.py"; "-v"] [("CI", "1")]) other_server
      {["verification.png" := post_scroll reachable]}.
Proof.
  apply (same_ending_same_calls Verify ["verify.py"] [] reachable ∅
           ["verify.py"; "-v"] [("CI", "1")] other_server
           {["verification.png" := post_scroll reachable]}).
  reflexivity.
Defined.

(** ** The browser engine *)

(** C10: every launch of every run asks for Chromium and passes no option;
    whatever the command line and the environment variables are, the
    launch is the first call once the driver runs, and every browser
    process of the run is a headless Chromium. *)
Theorem chromium_headless_always v args vars e disk :
  Forall launches_default_chromium (calls v (standalone args vars) e disk)
  /\ head (calls v (standalone args vars) e disk)
     = (if driver_starts e then Some (Launch Chromium []) else None)
  /\ Forall (fun b => engine b = Chromium /\ headless b = true)
       (browsers (final (execute v (standalone args vars) e disk))).
Proof.
  destruct v; run_script; repeat constructor.
Qed.

(** * Further properties of the scripts *)

(** ** Calls and sequencing, one step at a time *)

Lemma bind_inv {A B} (m : M A) (k : A -> M B) e w r w' :
  bind m k e w = (r, w') ->
  (exists x, m e w = (Raised x, w') /\ r = Raised x)
  \/ (exists a w1, m e w = (Returned a, w1) /\ k a e w1 = (r, w')).
Proof.
  unfold bind. destruct (m e w) as [[a|x] w1]; intros H.
  - right. eauto.
  - left. injection H as <- <-. eauto.
Qed.

Lemma call_inv {A} o (effect : env -> world -> option (A * world)) e w r w' :
  call o effect e w = (r, w') ->
  (r = Raised (Error o) /\ w' = log o w /\ fails e (length (trace w)) o = true)
  \/ (r = Raised (TargetClosed o) /\ w' = log o w /\ effect e (log o w) = None)
  \/ (exists a, r = Returned a /\ effect e (log o w) = Some (a, w')
                /\ fails e (length (trace w)) o = false).
Proof.
  unfold call. destruct (fails e (length (trace w)) o).
  - intros [= <- <-]. now left.
  - destruct (effect e (log o w)) as [[a w2]|]; intros [= <- <-].
    + right; right. eauto.
    + right; left. auto.
Qed.

Lemma screenshot_inv page path e w r w' :
  screenshot page path e w = (r, w') ->
  (r = Raised (Error (Screenshot page path))
   /\ fails e (length (trace w)) (Screenshot page path) = true
   /\ w' = if write_started e
           then spoil path (log (Screenshot page path) w)
           else log (Screenshot page path) w)
  \/ (r = Raised (TargetClosed (Screenshot page path))
      /\ w' = log (Screenshot page path) w
      /\ live_page (log (Screenshot page path) w) page = None)
  \/ (exists pg, r = Returned tt
        /\ live_page (log (Screenshot page path) w) page = Some pg
        /\ w' = store path (shown pg) (log (Screenshot page path) w)).
Proof.
  unfold screenshot. destruct (fails e (length (trace w)) (Screenshot page path)).
  - intros [= <- <-]. left. auto.
  - destruct (live_page (log (Screenshot page path) w) page) as [pg|];
      intros [= <- <-].
    + right; right. eauto.
    + right; left. auto.
Qed.

Lemma lookup_snoc {A} (l : list A) (x : A) :
  ((l ++ [x])%list) !! length l = Some x.
Proof. now apply list_lookup_middle. Qed.

Lemma insert_snoc {A} (l : list A) (x y : A) :
  <[length l := y]> ((l ++ [x])%list) = (l ++ [y])%list.
Proof.
  rewrite insert_app_r_alt by lia. now rewrite Nat.sub_diag.
Qed.

Lemma map_snoc {A B} (f : A -> B) (l : list A) (x : A) :
  map f (l ++ [x])%list = (map f l ++ [f x])%list.
Proof. apply map_app. Qed.

Lemma lookup_map_snoc {A B} (f : A -> B) (l : list A) (y : B) :
  ((map f l ++ [y])%list) !! length l = Some y.
Proof. apply list_lookup_middle. now rewrite length_map. Qed.

(** Brings a world reached from an arbitrary one to its fields. *)
Ltac world_simpl :=
  repeat progress
    (unfold live_page, live_browser, log, store, spoil, set_driver,
       set_browsers, set_pages, set_fs, set_damaged, blank, loaded, idle, ran,
       kill in *;
     cbn [driver browsers pages fs damaged trace owner shown alive engine
          headless location document history headless_of] in *;
     rewrite ?lookup_snoc, ?insert_snoc, ?map_snoc, ?lookup_map_snoc in *).

(** The next call of [H], on the path where the script returns. *)
Ltac returned H Hc :=
  apply bind_inv in H as [(? & _ & [=]) | (? & ? & Hc & H)];
  apply call_inv in Hc as [[[=] _]|[[[=] _]|(? & [= <-] & Hc & _)]];
  world_simpl.

(** The next call of [H], on the path where the script raises: either this
    call raised, or it returned and a later one raises. *)
Ltac raised_or_returned H Hc :=
  apply bind_inv in H as [(? & Hc & ?) | (? & ? & Hc & H)];
  [ apply call_inv in Hc as [(? & ? & _)|[(? & ? & _)|(? & ? & _)]];
    simplify_eq; world_simpl
  | apply call_inv in Hc as [[[=] _]|[[[=] _]|(? & [= <-] & Hc & _)]];
    world_simpl; simplify_eq; world_simpl ].

(** Case analysis on the answers of the oracle [f]. *)
Ltac answers f :=
  repeat (match goal with
          | |- context [f ?n ?o] => destruct (f n o) eqn:?
          end; cbn -[map_insert]).

(** ** The function [run], called in any world *)

(** X1: when [run] returns, in whatever world it was called: it issued its six
    calls on a browser and a page of its own, the browser it launched is
    closed and the browsers that were there are as they were, the image of
    the page loaded and left alone for 5000 ms is stored under the output
    path and no other file has changed, and the driver still runs. *)
Theorem run_returns playwright e w u w' :
  run playwright e w = (Returned u, w') ->
  trace w' = (trace w ++
      [Launch (chromium playwright) []; NewPage (length (browsers w));
       Goto (length (pages w)) "http://localhost:8000";
       WaitForTimeout (length (pages w)) 5000;
       Screenshot (length (pages w)) "jules-scratch/verification/verification.png";
       Close (length (browsers w))])%list
  /\ browsers w' = (browsers w ++
       [{| engine := chromium playwright; headless := true; alive := false |}])%list
  /\ fs w' = <["jules-scratch/verification/verification.png" :=
               {| location := "http://localhost:8000";
                  document := served e "http://localhost:8000";
                  history := [Idled 5000] |}]> (fs w)
  /\ driver w' = Running.
Proof.
  unfold run. destruct w as [d bs ps files cut t]. intros H. world_simpl.
  returned H Hlaunch.
  destruct d; simplify_eq.
  returned H Hpage. simplify_eq.
  returned H Hgoto. simplify_eq.
  returned H Hwait. simplify_eq.
  apply bind_inv in H as [(? & _ & [=]) | (? & ? & Hshot & H)].
  apply screenshot_inv in Hshot as [[[=] _]|[[[=] _]|(pg & _ & Hpg & ->)]].
  world_simpl. simplify_eq.
  apply call_inv in H as [[[=] _]|[[[=] _]|(? & _ & H & _)]].
  world_simpl. simplify_eq. world_simpl.
  rewrite <- !app_assoc. repeat split.
Qed.

Lemma run_returns_witness :
  fs (snd (run the_playwright reachable (started ∅)))
  = <["jules-scratch/verification/verification.png" :=
       {| location := "http://localhost:8000";
          document := served reachable "http://localhost:8000";
          history := [Idled 5000] |}]> ∅.
Proof.
  apply (run_returns the_playwright reachable (started ∅) tt).
  vm_compute. reflexivity.
Defined.

(** X2: when a call after the launch raises, [run] returns to its caller with
    the browser it launched still running: [run] has no handler that
    closes it. *)
Theorem run_keeps_browser_when_it_raises playwright e w o w' :
  run playwright e w = (Raised (Error o), w') ->
  o <> Launch (chromium playwright) [] ->
  browsers w' = (browsers w ++
    [{| engine := chromium playwright; headless := true; alive := true |}])%list.
Proof.
  unfold run. destruct w as [d bs ps files cut t]. intros H Hlater. world_simpl.
  raised_or_returned H Hlaunch; try congruence.
  destruct d; simplify_eq. world_simpl.
  raised_or_returned H Hpage; [reflexivity |].
  raised_or_returned H Hgoto; [reflexivity |].
  raised_or_returned H Hwait; [reflexivity |].
  apply bind_inv in H as [(? & Hshot & ?) | (? & ? & Hshot & H)].
  { apply screenshot_inv in Hshot as [(? & _ & ->)|[(? & ? & _)|(? & ? & _)]];
      simplify_eq. destruct (write_started e); reflexivity. }
  apply screenshot_inv in Hshot as [[[=] _]|[[[=] _]|(pg & _ & Hpg & ->)]].
  world_simpl. simplify_eq.
  apply call_inv in H as [(? & ? & _)|[(? & ? & _)|(? & ? & _)]];
    simplify_eq; reflexivity.
Qed.

Lemma run_keeps_browser_when_it_raises_witness :
  browsers (snd (run the_playwright unreachable (started ∅)))
  = [{| engine := Chromium; headless := true; alive := true |}].
Proof.
  apply (run_keeps_browser_when_it_raises the_playwright unreachable (started ∅)
           (Goto 0 "http://localhost:8000")).
  - reflexivity.
  - discriminate.
Defined.

(** ** Module bodies *)

(** X3: executed under a name other than [__main__], [verify.py] runs its
    two imports, defines [main] and does nothing else: whatever the
    environment, no call is issued and nothing is started or written.  The
    exit status is 0 when both imports resolve; otherwise the first import
    that does not resolve ends the process with status 1. *)
Theorem verify_py_import_is_inert ps e disk :
  name ps <> "__main__" ->
  final (execute Verify ps e disk) = boot disk
  /\ uncaught (execute Verify ps e disk)
     = (if importable ps "asyncio"
        then if importable ps "playwright.async_api"
             then None
             else Some (ModuleNotFoundError "playwright.async_api")
        else Some (ModuleNotFoundError "asyncio"))
  /\ status (execute Verify ps e disk)
     = (if importable ps "asyncio" && importable ps "playwright.async_api"
        then 0 else 1).
Proof.
  intros Hname. apply String.eqb_neq in Hname.
  unfold execute, python, script, verify_py, import_, bind.
  destruct (importable ps "asyncio"); [| repeat split].
  destruct (importable ps "playwright.async_api"); [| repeat split].
  rewrite Hname. repeat split.
Qed.

Lemma verify_py_import_is_inert_witness :
  status (execute Verify (imported "verify") reachable ∅) = 0
  /\ status (execute Verify (imported_bare "verify") reachable ∅) = 1.
Proof.
  split.
  - apply (verify_py_import_is_inert (imported "verify") reachable ∅).
    discriminate.
  - apply (verify_py_import_is_inert (imported_bare "verify") reachable ∅).
    discriminate.
Defined.

(** X4: [verify_animation.py] has no such guard: under any module name, a
    completed execution of the module went through the whole sequence and
    stored the image. *)
Theorem verify_animation_py_runs_on_import ps e disk :
  completes VerifyAnimation ps e disk ->
  calls VerifyAnimation ps e disk = contracted VerifyAnimation
  /\ files_after VerifyAnimation ps e disk
     = <["jules-scratch/verification/verification.png"
         := picture VerifyAnimation e]> disk.
Proof.
  run_script; intros Hdone; try discriminate Hdone; split; reflexivity.
Qed.

Lemma verify_animation_py_runs_on_import_witness :
  calls VerifyAnimation (imported "verify_animation") reachable ∅
  = contracted VerifyAnimation.
Proof.
  apply (verify_animation_py_runs_on_import
           (imported "verify_animation") reachable ∅).
  reflexivity.
Defined.

(** ** Runs that abort *)

(** X5: when [close] is the call that raises, the exit status is 1 although
    the whole sequence was issued and the image is stored. *)
Theorem close_failure_keeps_output v args vars e disk :
  uncaught (execute v (standalone args vars) e disk) = Some (Error (Close 0)) ->
  status (execute v (standalone args vars) e disk) = 1
  /\ calls v (standalone args vars) e disk = contracted v
  /\ files_after v (standalone args vars) e disk
     = <[output_path v := picture v e]> disk.
Proof.
  destruct v; run_script; intros Hclose; try discriminate Hclose;
    repeat split.
Qed.

Lemma close_failure_keeps_output_witness :
  status (execute Verify shell close_raises ∅) = 1
  /\ files_after Verify shell close_raises ∅ !! "verification.png"
     = Some (picture Verify close_raises).
Proof.
  destruct (close_failure_keeps_output Verify ["verify.py"] [] close_raises ∅ eq_refl)
    as (Hstatus & _ & Hfiles).
  split; [exact Hstatus |].
  unfold shell. rewrite Hfiles. apply lookup_insert_eq.
Defined.

(** X6: a run that ends with any other exception (the driver that does
    not start, or a call before [close] that raises) never issues [close]
    and stores no image.  The files are as they were, with one exception:
    when it is the capture that raised, after opening its file, the image
    that was at the output path is lost and a file cut short is left
    there; no other path is touched. *)
Theorem abort_before_close_stores_no_image v args vars e disk x :
  uncaught (execute v (standalone args vars) e disk) = Some x ->
  x <> Error (Close 0) ->
  List.filter is_close (calls v (standalone args vars) e disk) = []
  /\ files_after v (standalone args vars) e disk
     = (if capture_raised x && write_started e
        then delete (output_path v) disk else disk)
  /\ damaged (final (execute v (standalone args vars) e disk))
     = (if capture_raised x && write_started e
        then {[output_path v]} else ∅).
Proof.
  destruct v; run_script; intros Hraised Hother; simplify_eq;
    repeat split; cbn; set_solver.
Qed.

Lemma abort_before_close_stores_no_image_witness :
  files_after Verify shell disk_full {["verification.png" := post_scroll reachable]}
  = delete "verification.png" {["verification.png" := post_scroll reachable]}
  /\ files_after VerifyAnimation shell unreachable
       {["verification.png" := post_scroll reachable]}
     = {["verification.png" := post_scroll reachable]}.
Proof.
  split.
  - apply (abort_before_close_stores_no_image Verify ["verify.py"] [] disk_full
             {["verification.png" := post_scroll reachable]}
             (Error (Screenshot 0 "verification.png"))).
    + reflexivity.
    + discriminate.
  - apply (abort_before_close_stores_no_image VerifyAnimation ["verify.py"] []
             unreachable {["verification.png" := post_scroll reachable]}
             (Error (Goto 0 "http://localhost:8000"))).
    + reflexivity.
    + discriminate.
Defined.

(** X7: whichever call raises, the exit status is 1, that call is the last one
    issued, it is the one the environment made fail, and it was issued
    once: no call is retried and nothing is attempted after a failure. *)
Theorem raising_call_is_last v args vars e disk o :
  uncaught (execute v (standalone args vars) e disk) = Some (Error o) ->
  status (execute v (standalone args vars) e disk) = 1
  /\ (exists n, length (calls v (standalone args vars) e disk) = S n
        /\ calls v (standalone args vars) e disk !! n = Some o
        /\ fails e n o = true)
  /\ List.filter (fun c => bool_decide (c = o))
       (calls v (standalone args vars) e disk) = [o].
Proof.
  destruct v; run_script; intros Hraised; simplify_eq;
    (split; [reflexivity |]);
    (split; [eexists; split; [reflexivity | split; [reflexivity | assumption]]
            | reflexivity]).
Qed.

Lemma raising_call_is_last_witness :
  List.filter (fun c => bool_decide (c = Close 0))
    (calls Verify shell close_raises ∅)
  = [Close 0].
Proof.
  apply (raising_call_is_last Verify ["verify.py"] [] close_raises ∅ (Close 0)
           eq_refl).
Defined.

(** X8: when the launch raises, it is the only call of the run, and there is
    no browser process and no page at the end. *)
Theorem launch_failure_leaves_nothing v args vars e disk :
  uncaught (execute v (standalone args vars) e disk)
    = Some (Error (Launch Chromium [])) ->
  calls v (standalone args vars) e disk = [Launch Chromium []]
  /\ browsers (final (execute v (standalone args vars) e disk)) = []
  /\ pages (final (execute v (standalone args vars) e disk)) = []
  /\ files_after v (standalone args vars) e disk = disk.
Proof.
  destruct v; run_script; intros Hlaunch; try discriminate Hlaunch;
    repeat split.
Qed.

Lemma launch_failure_leaves_nothing_witness :
  calls VerifyAnimation shell launch_raises ∅ = [Launch Chromium []].
Proof.
  apply (launch_failure_leaves_nothing VerifyAnimation ["verify.py"] []
           launch_raises ∅ eq_refl).
Defined.

(** X9: when the driver does not start, the body of the scope is not entered:
    no call is issued, nothing has changed, and the exit status is 1. *)
Theorem driver_failure_issues_nothing v args vars e disk :
  driver_starts e = false ->
  execute v (standalone args vars) e disk
  = {| status := 1; uncaught := Some DriverError; final := boot disk |}.
Proof.
  intros Hdriver.
  destruct v; unfold execute, python, script, verify_animation_py, verify_py,
    import_, bind, asyncio_run, main, async_with, with_, sync_playwright,
    async_playwright, playwright_start; cbn; now rewrite Hdriver.
Qed.

Lemma driver_failure_issues_nothing_witness :
  calls Verify shell no_driver ∅ = [].
Proof.
  unfold calls.
  now rewrite (driver_failure_issues_nothing Verify ["verify.py"] [] no_driver ∅
                 eq_refl).
Defined.

(** ** What the scripts never do *)

(** X10: no run ends on a dead handle: the scripts issue every call on a
    browser that runs and on a page of such a browser, and use neither
    after [close]. *)
Theorem handles_are_live v args vars e disk o :
  uncaught (execute v (standalone args vars) e disk) <> Some (TargetClosed o).
Proof.
  destruct v; run_script; discriminate.
Qed.

(** X11: the value [page.evaluate] returns is dropped: with other values for
    the evaluated expressions the run is the same, in exit status, calls,
    files and all. *)
Theorem evaluate_result_is_unused v args vars e disk j :
  execute v (standalone args vars) (with_js_result e j) disk
  = execute v (standalone args vars) e disk.
Proof.
  destruct e as [starts f cut sv js]. unfold with_js_result.
  destruct v;
    unfold execute, python, script, verify_animation_py, verify_py, import_,
      asyncio_run, main, async_with, with_, run, await, standalone,
      sync_playwright, async_playwright, playwright_start, playwright_stop,
      launch, new_page, goto, evaluate, wait_for_timeout, asyncio_sleep,
      screenshot, close, call, bind, boot;
    cbn [enter leave name importable String.eqb Ascii.eqb Bool.eqb
         driver_starts fails write_started served js_result];
    destruct starts; cbn -[map_insert]; try reflexivity;
    answers f; reflexivity.
Qed.
